(** * Startup hooks of [kolibri.core.apps.KolibriCoreConfig]

    A shallow embedding of the three startup procedures of
    [kolibri/core/apps.py]:

    - [activate_pragmas_per_connection], the per-connection tuner;
    - [activate_pragmas_on_start], the startup tuner;
    - [check_redis_settings], the cache-settings reconciler.

    Python statements become computations in a state-and-exception monad.
    The state is the part of the outside world a procedure talks to (the
    database connection, the cache server, the log) together with the
    chronological history of everything the procedure did to it.  A raised
    exception keeps the state reached so far: what was written before the
    raise stays written. *)

From Stdlib Require Import String ZArith List Bool Lia DecimalString.
Import ListNotations.

Local Open Scope string_scope.
Local Open Scope Z_scope.

(** Comparisons stay folded during symbolic execution. *)
#[local] Arguments String.eqb : simpl never.
#[local] Arguments Z.eqb : simpl never.
#[local] Arguments Z.ltb : simpl never.
#[local] Arguments Z.gtb : simpl never.

(** ** Python values and exceptions *)

(** The exception classes the source distinguishes in its handlers.
    [Exception] stands for every other subclass of Python's [Exception]. *)
Inductive exn_class : Type :=
| ConnectionError        (* redis.exceptions.ConnectionError *)
| DatabaseError          (* django.db.utils.DatabaseError *)
| RedisConnectionError   (* kolibri.core.errors.RedisConnectionError *)
| Exception.

(** An exception object: its class, its message ([str(e)]) and, when it
    was raised with [raise_from], its [__cause__]. *)
Inductive exn : Type :=
| Exn (cls : exn_class) (msg : string)                   (* cls(msg) *)
| ExnFrom (cls : exn_class) (msg : string) (cause : exn). (* raise_from(cls(msg), cause) *)

Definition class_of (e : exn) : exn_class :=
  match e with Exn c _ | ExnFrom c _ _ => c end.

Definition str (e : exn) : string :=
  match e with Exn _ m | ExnFrom _ m _ => m end.

Definition cause_of (e : exn) : option exn :=
  match e with Exn _ _ => None | ExnFrom _ _ c => Some c end.

Definition exn_class_eqb (a b : exn_class) : bool :=
  match a, b with
  | ConnectionError, ConnectionError
  | DatabaseError, DatabaseError
  | RedisConnectionError, RedisConnectionError
  | Exception, Exception => true
  | _, _ => false
  end.

(** [isinstance e c], as an [except c] clause tests it.  Every class is an
    [Exception]. *)
Definition isinstance (e : exn) (c : exn_class) : bool :=
  match c with
  | Exception => true
  | _ => exn_class_eqb (class_of e) c
  end.

(** The Python objects that cross the boundary to a collaborator or to
    the log. *)
Inductive value : Type :=
| VNone
| VStr (s : string)
| VInt (n : Z)
| VExn (e : exn).

(** How a call to a collaborator ended. *)
Inductive outcome : Type :=
| Returned (v : value)
| Raised (e : exn).

(** [a != "ok"] on Python values. *)
Definition value_ne_str (v : value) (s : string) : bool :=
  match v with
  | VStr t => negb (String.eqb t s)
  | _ => true
  end.

(** ** The state-and-exception monad *)

Inductive result (A : Type) : Type :=
| Normal (a : A)
| Raise (e : exn).
Arguments Normal {A} a.
Arguments Raise {A} e.

Definition M (S A : Type) : Type := S -> result A * S.

Definition ret {S A} (a : A) : M S A := fun s => (Normal a, s).

Definition bind {S A B} (m : M S A) (k : A -> M S B) : M S B :=
  fun s =>
    match m s with
    | (Normal a, s') => k a s'
    | (Raise e, s') => (Raise e, s')
    end.

Definition raise {S A} (e : exn) : M S A := fun s => (Raise e, s).

(** [try: body except: handler].  The handler receives every exception;
    it re-raises those its clauses do not match. *)
Definition try_except {S A} (body : M S A) (handler : exn -> M S A) : M S A :=
  fun s =>
    match body s with
    | (Normal a, s') => (Normal a, s')
    | (Raise e, s') => handler e s'
    end.

Definition modify {S} (f : S -> S) : M S unit := fun s => (Normal tt, f s).
Definition gets {S A} (f : S -> A) : M S A := fun s => (Normal (f s), s).

Declare Scope py_scope.
Delimit Scope py_scope with py.
Notation "x <- m ;; k" := (bind m (fun x => k))
  (at level 100, m at next level, right associativity) : py_scope.
Notation "m ;; k" := (bind m (fun _ => k))
  (at level 100, right associativity) : py_scope.
Notation "'when' b 'then' m" := (if b then m else ret tt)
  (at level 100, b at next level, right associativity) : py_scope.
Local Open Scope py_scope.

(** ** Database connections *)

(** A connection handle: [connection.vendor] and [connection.alias]. *)
Record Connection : Type := {
  vendor : string;
  alias : string
}.

(** What the tuners do to a connection. *)
Inductive db_call : Type :=
| Cursor (conn : Connection)                          (* connection.cursor() *)
| Execute (conn : Connection) (sql : string)          (* cursor.execute(sql) *)
| Executescript (conn : Connection) (script : string) (* cursor.executescript(script) *)
| Close (conn : Connection)                           (* connection.close() *)
| Repair_sqlite_db (conn : Connection).               (* repair_sqlite_db(connection) *)

Inductive db_event : Type :=
| DbCall (c : db_call) (o : outcome).

(** The database side of the world.  [quick_check] is what the integrity
    probe, [cursor.execute("PRAGMA quick_check").fetchone()[0]], comes to on
    this database: the value of the first column, or the exception the
    probe raises.  [default_connection] is [django.db.connection].
    [db_faults] scripts the database calls of the startup tuner, one entry
    a call: [Some e] makes the call raise [e], [None] (or a script that has
    run out) lets it return. *)
Record DbWorld : Type := {
  quick_check : outcome;
  default_connection : Connection;
  db_faults : list (option exn);
  db_history : list db_event
}.

Definition db_record (ev : db_event) (w : DbWorld) : DbWorld :=
  {| quick_check := quick_check w;
     default_connection := default_connection w;
     db_faults := db_faults w;
     db_history := db_history w ++ [ev] |}.

(** The next entry of the script of database faults. *)
Definition db_pop_fault (w : DbWorld) : option exn * DbWorld :=
  match db_faults w with
  | [] => (None, w)
  | o :: fs =>
      (o, {| quick_check := quick_check w;
             default_connection := default_connection w;
             db_faults := fs;
             db_history := db_history w |})
  end.

(** A database call that has no handler around it and whose error is let
    through: it raises what the script says, or returns [None]; either way
    the history records it. *)
Definition db_try (c : db_call) : M DbWorld unit :=
  fun w =>
    let (o, w1) := db_pop_fault w in
    match o with
    | Some e => (Raise e, db_record (DbCall c (Raised e)) w1)
    | None => (Normal tt, db_record (DbCall c (Returned VNone)) w1)
    end.

(** The [n]-th entry of the script, counted from 0: the exception the
    [n]-th scripted call raises, if it raises. *)
Definition db_fault_at (n : nat) (w : DbWorld) : option exn :=
  match nth_error (db_faults w) n with
  | Some o => o
  | None => None
  end.

(** A collaborator call of the per-connection tuner outside its handler:
    it is recorded and returns [None]. *)
Definition db_do (c : db_call) : M DbWorld unit :=
  modify (db_record (DbCall c (Returned VNone))).

Definition connection_cursor (conn : Connection) : M DbWorld unit :=
  db_do (Cursor conn).

(** [cursor.execute(sql)] of the startup tuner. *)
Definition cursor_execute (conn : Connection) (sql : string) : M DbWorld unit :=
  db_try (Execute conn sql).

(** [connection.cursor()] of the startup tuner. *)
Definition startup_cursor (conn : Connection) : M DbWorld unit :=
  db_try (Cursor conn).

Definition cursor_executescript (conn : Connection) (script : string)
  : M DbWorld unit :=
  db_do (Executescript conn script).

(** [connection.close()] of the startup tuner. *)
Definition connection_close (conn : Connection) : M DbWorld unit :=
  db_try (Close conn).

(** Modelled from the spec: [kolibri.core.sqlite.utils.repair_sqlite_db] is
    defined in a module outside this development.  The specification treats it as a
    collaborator "that takes the connection and performs recovery with no
    return value": the call is recorded and returns. *)
Definition repair_sqlite_db (conn : Connection) : M DbWorld unit :=
  db_do (Repair_sqlite_db conn).

(** [cursor.execute("PRAGMA quick_check").fetchone()[0]]: the probe, which
    returns the database's verdict or raises. *)
Definition cursor_quick_check (conn : Connection) : M DbWorld value :=
  fun w =>
    let w' := db_record (DbCall (Execute conn "PRAGMA quick_check")
                                (quick_check w)) w in
    match quick_check w with
    | Returned v => (Normal v, w')
    | Raised e => (Raise e, w')
    end.

Section Tuners.

(** Constants the source imports from modules outside this development:
    [kolibri.deployment.default.sqlite_db_names.NOTIFICATIONS] and the two
    scripts of [kolibri.core.sqlite.pragmas]. *)
Variable NOTIFICATIONS : string.
Variable CONNECTION_PRAGMAS : string.
Variable START_PRAGMAS : string.

(** [KolibriCoreConfig.activate_pragmas_per_connection(sender, connection)] *)
Definition activate_pragmas_per_connection (connection : Connection)
  : M DbWorld unit :=
  if (vendor connection =? "sqlite")%string then
    (if (alias connection =? NOTIFICATIONS)%string then
       broken_db <-
         try_except
           (connection_cursor connection ;;
            quick_check <- cursor_quick_check connection ;;
            ret (value_ne_str quick_check "ok"))
           (fun e =>
              if isinstance e DatabaseError then ret true else raise e) ;;
       when broken_db then repair_sqlite_db connection
     else ret tt) ;;
    connection_cursor connection ;;
    cursor_executescript connection CONNECTION_PRAGMAS
  else ret tt.

(** [KolibriCoreConfig.activate_pragmas_on_start()].  No statement of it
    sits in a handler: a database error of [cursor()], [execute()] or
    [close()] leaves the function at once. *)
Definition activate_pragmas_on_start : M DbWorld unit :=
  connection <- gets default_connection ;;
  if (vendor connection =? "sqlite")%string then
    startup_cursor connection ;;
    cursor_execute connection START_PRAGMAS ;;
    connection_close connection
  else ret tt.

End Tuners.

(** ** The cache server and its admin client *)

(** [OPTIONS["Cache"]], the configuration the reconciler reads. *)
Record Options : Type := {
  CACHE_BACKEND : string;
  CACHE_REDIS_MAXMEMORY : Z;
  CACHE_REDIS_MAXMEMORY_POLICY : string
}.

(** The live configuration of the cache server and its memory use.  The
    memory use is what [get_used_memory] reads; what a write does to it is
    the server's affair, and no property below speaks of it. *)
Record Server : Type := {
  srv_policy : string;      (* maxmemory-policy; the server default is "noeviction" *)
  srv_maxmemory : Z;        (* maxmemory; 0 is no limit *)
  srv_used_memory : Z
}.

(** The operations of the cache admin client, as the specification lists
    them, and the call that yields the client. *)
Inductive call : Type :=
| Get_master_client
| Get_policy
| Set_policy (policy : string)
| Get_max_memory
| Set_max_memory (maxmemory : Z)
| Get_used_memory.

Inductive level : Type := INFO | WARNING.

(** What a run of the reconciler does, in the order it does it: calls to
    the cache client with their outcome, and log records. *)
Inductive event : Type :=
| ECall (c : call) (o : outcome)
| ELog (l : level) (msg : value).

(** Modelled from the spec: the [RedisSettingsHelper] object, of which the
    reconciler reads one attribute, [changed]. *)
Record RedisSettingsHelper : Type := {
  changed : bool
}.

(** The cache side of the world.  [faults] scripts the client calls still
    to come, one entry a call: [Some e] makes the call raise [e], [None]
    (or a script that has run out) lets it through to the server.
    [helper] is the helper object of the run, once it is constructed. *)
Record World : Type := {
  server : Server;
  faults : list (option exn);
  helper : option RedisSettingsHelper;
  history : list event
}.

Definition initial (srv : Server) (fs : list (option exn)) : World :=
  {| server := srv; faults := fs; helper := None; history := [] |}.

Definition record (ev : event) (w : World) : World :=
  {| server := server w; faults := faults w; helper := helper w;
     history := history w ++ [ev] |}.

Definition set_server (srv : Server) (w : World) : World :=
  {| server := srv; faults := faults w; helper := helper w;
     history := history w |}.

Definition set_faults (fs : list (option exn)) (w : World) : World :=
  {| server := server w; faults := fs; helper := helper w;
     history := history w |}.

Definition set_helper (h : option RedisSettingsHelper) (w : World) : World :=
  {| server := server w; faults := faults w; helper := h;
     history := history w |}.

(** The next entry of the fault script. *)
Definition pop_fault (w : World) : option exn * World :=
  match faults w with
  | [] => (None, w)
  | o :: fs => (o, set_faults fs w)
  end.

(** One call to the cache client: it raises what the script says, or is
    served; either way the history records it. *)
Definition client_call {A} (c : call) (serve : Server -> A * Server)
    (show : A -> value) : M World A :=
  fun w =>
    let (o, w1) := pop_fault w in
    match o with
    | Some e => (Raise e, record (ECall c (Raised e)) w1)
    | None =>
        let (a, srv) := serve (server w1) in
        (Normal a, record (ECall c (Returned (show a))) (set_server srv w1))
    end.

(** [process_cache.get_master_client()]: like every call in the [try]
    block it may raise, and the handlers treat what it raises alike. *)
Definition get_master_client : M World unit :=
  client_call Get_master_client (fun s => (tt, s)) (fun _ => VNone).

(** [logger.warning(msg)]: the record keeps the object it was given, a
    string or an exception. *)
Definition logger_warning (msg : value) : M World unit :=
  modify (record (ELog WARNING msg)).

(** *** [RedisSettingsHelper] *)

(** Modelled from the spec: the class
    [kolibri.core.utils.cache.RedisSettingsHelper] is defined in a module
    outside this development.  The specification gives the interface of
    the client it wraps ([get_policy], [set_policy], [get_max_memory],
    [set_max_memory], [get_used_memory]) and the helper's flag: "a boolean
    changed flag tracking whether this process has pushed any correction",
    "constructed fresh on each startup check", true "if and only if at
    least one corrective write was sent to the cache server".  So the
    helper starts with the flag down, a getter asks the client, and a
    setter raises the flag as it sends the write. *)
Definition new_RedisSettingsHelper : M World unit :=
  modify (set_helper (Some {| changed := false |})).

(** Modelled from the spec: the flag goes up with a write that is sent. *)
Definition mark_changed : M World unit :=
  modify (fun w =>
            set_helper
              (match helper w with
               | Some _ => Some {| changed := true |}
               | None => None
               end) w).

(** Modelled from the spec: [helper.changed]. *)
Definition helper_changed : M World bool :=
  fun w =>
    match helper w with
    | Some h => (Normal (changed h), w)
    | None => (Raise (Exn Exception "helper is not bound"), w)
    end.

(** Modelled from the spec: [helper.get_maxmemory_policy()]. *)
Definition get_maxmemory_policy : M World string :=
  client_call Get_policy (fun s => (srv_policy s, s)) VStr.

(** Modelled from the spec: [helper.set_maxmemory_policy(policy)]. *)
Definition set_maxmemory_policy (policy : string) : M World unit :=
  mark_changed ;;
  client_call (Set_policy policy)
    (fun s => (tt, {| srv_policy := policy;
                      srv_maxmemory := srv_maxmemory s;
                      srv_used_memory := srv_used_memory s |}))
    (fun _ => VNone).

(** Modelled from the spec: [helper.get_maxmemory()]. *)
Definition get_maxmemory : M World Z :=
  client_call Get_max_memory (fun s => (srv_maxmemory s, s)) VInt.

(** Modelled from the spec: [helper.set_maxmemory(maxmemory)]. *)
Definition set_maxmemory (maxmemory : Z) : M World unit :=
  mark_changed ;;
  client_call (Set_max_memory maxmemory)
    (fun s => (tt, {| srv_policy := srv_policy s;
                      srv_maxmemory := maxmemory;
                      srv_used_memory := srv_used_memory s |}))
    (fun _ => VNone).

(** Modelled from the spec: [helper.get_used_memory()]. *)
Definition get_used_memory : M World Z :=
  client_call Get_used_memory (fun s => (srv_used_memory s, s)) VInt.

(** ** The cache-settings reconciler *)

(** The fixed texts of the warnings. *)
Definition NO_POLICY_WARNING : string :=
  "Redis is configured without a maximum memory policy. Using Redis with "
  ++ "Kolibri, the following is suggested: maxmemory-policy allkeys-lru".

Definition NO_MAXMEMORY_WARNING : string :=
  "Redis is configured without a maximum memory size.".

Definition PROBLEMATIC_WARNING : string :=
  "Problematic Redis settings detected, please see Redis configuration "
  ++ "documentation for details: https://redis.io/topics/config".

Definition UNABLE_TO_CHECK_WARNING : string :=
  "Unable to check Redis settings".

(** ["Unable to connect to Redis: {}".format(str(e))] *)
Definition unable_to_connect (e : exn) : string :=
  "Unable to connect to Redis: " ++ str e.

Section Reconciler.

(** [kolibri.utils.data.bytes_for_humans], which renders a byte count for
    the log; the source imports it from a module outside this development. *)
Variable bytes_for_humans : Z -> string.

(** ["Redis was using {used_memory} before setting `maxmemory`
    configuration of {config_memory}".format(...)] *)
Definition used_memory_warning (used_memory config_maxmemory : Z) : string :=
  "Redis was using " ++ bytes_for_humans used_memory
  ++ " before setting `maxmemory` configuration of "
  ++ bytes_for_humans config_maxmemory.

(** The body of the [try] statement of [check_redis_settings]. *)
Definition check_redis_settings_try
    (config_maxmemory : Z) (config_maxmemory_policy : string)
  : M World unit :=
  get_master_client ;;
  new_RedisSettingsHelper ;;
  maxmemory_policy <- get_maxmemory_policy ;;
  (if negb (config_maxmemory_policy =? "")%string
      && negb (maxmemory_policy =? config_maxmemory_policy)%string
   then set_maxmemory_policy config_maxmemory_policy
   else when (maxmemory_policy =? "noeviction")%string
        then logger_warning (VStr NO_POLICY_WARNING)) ;;
  maxmemory <- get_maxmemory ;;
  (if (config_maxmemory >? 0) && negb (maxmemory =? config_maxmemory)
   then
     used_memory <- get_used_memory ;;
     (when (config_maxmemory <? used_memory)
      then logger_warning
             (VStr (used_memory_warning used_memory config_maxmemory))) ;;
     set_maxmemory config_maxmemory
   else when (maxmemory =? 0)
        then logger_warning (VStr NO_MAXMEMORY_WARNING)) ;;
  changed <- helper_changed ;;
  when (negb changed
        && ((maxmemory =? 0) || (maxmemory_policy =? "noeviction")%string))
  then logger_warning (VStr PROBLEMATIC_WARNING).

(** The two [except] clauses of [check_redis_settings]. *)
Definition check_redis_settings_except (e : exn) : M World unit :=
  if isinstance e ConnectionError then
    logger_warning (VStr (unable_to_connect e)) ;;
    raise (ExnFrom RedisConnectionError (unable_to_connect e) e)
  else if isinstance e Exception then
    logger_warning (VStr UNABLE_TO_CHECK_WARNING) ;;
    logger_warning (VExn e)
  else raise e.

(** [KolibriCoreConfig.check_redis_settings()] *)
Definition check_redis_settings (OPTIONS : Options) : M World unit :=
  if negb (CACHE_BACKEND OPTIONS =? "redis")%string then ret tt
  else
    let config_maxmemory := CACHE_REDIS_MAXMEMORY OPTIONS in
    let config_maxmemory_policy := CACHE_REDIS_MAXMEMORY_POLICY OPTIONS in
    try_except
      (check_redis_settings_try config_maxmemory config_maxmemory_policy)
      check_redis_settings_except.

End Reconciler.

(** A plain instance of [bytes_for_humans], the byte count in decimal
    followed by "B", to run the reconciler on concrete inputs. *)
Definition bytes_plain (n : Z) : string :=
  NilZero.string_of_int (Z.to_int n) ++ "B".

(** ** Observations on a history *)

Definition call_eqb (a b : call) : bool :=
  match a, b with
  | Get_master_client, Get_master_client
  | Get_policy, Get_policy
  | Get_max_memory, Get_max_memory
  | Get_used_memory, Get_used_memory => true
  | Set_policy p, Set_policy q => (p =? q)%string
  | Set_max_memory m, Set_max_memory n => m =? n
  | _, _ => false
  end.

(** The event is the call [c], whatever its outcome. *)
Definition is_call (c : call) (ev : event) : bool :=
  match ev with
  | ECall c' _ => call_eqb c' c
  | ELog _ _ => false
  end.

Definition is_set_policy (ev : event) : bool :=
  match ev with
  | ECall (Set_policy _) _ => true
  | _ => false
  end.

Definition is_set_maxmemory (ev : event) : bool :=
  match ev with
  | ECall (Set_max_memory _) _ => true
  | _ => false
  end.

(** A corrective write: a [set] sent to the cache server. *)
Definition is_write (ev : event) : bool :=
  is_set_policy ev || is_set_maxmemory ev.

(** The event is a call that raised. *)
Definition is_raised (ev : event) : bool :=
  match ev with
  | ECall _ (Raised _) => true
  | _ => false
  end.

(** The event is the warning [msg]. *)
Definition is_warning (msg : string) (ev : event) : bool :=
  match ev with
  | ELog WARNING (VStr m) => (m =? msg)%string
  | _ => false
  end.

Definition count (p : event -> bool) (h : list event) : nat :=
  length (filter p h).

(** What the first call [c] that returned gave back. *)
Fixpoint returned (c : call) (h : list event) : option value :=
  match h with
  | [] => None
  | ECall c' (Returned v) :: t =>
      if call_eqb c' c then Some v else returned c t
  | _ :: t => returned c t
  end.

(** The event right before the first event that satisfies [p]. *)
Fixpoint just_before (p : event -> bool) (h : list event) : option event :=
  match h with
  | a :: (b :: _) as t => if p b then Some a else just_before p t
  | _ => None
  end.

(** The exception of the first call that raised, and what the history
    holds after that call. *)
Fixpoint first_raise (h : list event) : option (exn * list event) :=
  match h with
  | [] => None
  | ECall _ (Raised e) :: t => Some (e, t)
  | _ :: t => first_raise t
  end.

(** ** Runs and their hypotheses *)

(** A run of the reconciler against the server [srv], the client calls
    failing as the script [fs] says. *)
Definition run (bytes_for_humans : Z -> string) (OPTIONS : Options)
    (srv : Server) (fs : list (option exn)) : result unit * World :=
  check_redis_settings bytes_for_humans OPTIONS (initial srv fs).

(** The server holds what the configuration asks for. *)
Definition settled (OPTIONS : Options) (srv : Server) : Prop :=
  (CACHE_REDIS_MAXMEMORY_POLICY OPTIONS = "" \/
   srv_policy srv = CACHE_REDIS_MAXMEMORY_POLICY OPTIONS) /\
  (CACHE_REDIS_MAXMEMORY OPTIONS <= 0 \/
   srv_maxmemory srv = CACHE_REDIS_MAXMEMORY OPTIONS).

(** The integrity probe fails: its verdict is not "ok", or it raises a
    database error. *)
Definition probe_fails (o : outcome) : Prop :=
  match o with
  | Returned v => v <> VStr "ok"
  | Raised e => class_of e = DatabaseError
  end.

(** ** The application-ready hook *)

(** [logger.info(msg)] *)
Definition logger_info (msg : value) : M World unit :=
  modify (record (ELog INFO msg)).

(** What [ready] does to the framework, besides what it does through the
    tuners, the log and the reconciler. *)
Inductive app_call : Type :=
| Signal_connect
    (* connection_created.connect(self.activate_pragmas_per_connection) *)
| Filter_defaults_update
    (* FilterSet.FILTER_DEFAULTS.update({UUIDField: {"filter_class": UUIDFilter}}) *)
| Register_non_plugins (apps : list string)
    (* registered_plugins.register_non_plugins(settings.INSTALLED_APPS) *)
| Patch_relabeled_clone.
    (* F.relabeled_clone = lambda self, relabels: self *)

(** The world of [ready]: the database side, the cache side with the log,
    the process environment [os.environ], [settings.INSTALLED_APPS], and
    the history of what [ready] did to the framework. *)
Record AppWorld : Type := {
  app_db : DbWorld;
  app_cache : World;
  os_environ : string -> option string;
  INSTALLED_APPS : list string;
  app_history : list app_call
}.

(** A tuner, run on the database side. *)
Definition lift_db {A} (m : M DbWorld A) : M AppWorld A :=
  fun w =>
    let (r, d) := m (app_db w) in
    (r, {| app_db := d; app_cache := app_cache w;
           os_environ := os_environ w; INSTALLED_APPS := INSTALLED_APPS w;
           app_history := app_history w |}).

(** The logger and the reconciler, run on the cache side. *)
Definition lift_cache {A} (m : M World A) : M AppWorld A :=
  fun w =>
    let (r, c) := m (app_cache w) in
    (r, {| app_db := app_db w; app_cache := c;
           os_environ := os_environ w; INSTALLED_APPS := INSTALLED_APPS w;
           app_history := app_history w |}).

(** A step on the framework: it is recorded and returns. *)
Definition app_do (c : app_call) : M AppWorld unit :=
  modify (fun w =>
            {| app_db := app_db w; app_cache := app_cache w;
               os_environ := os_environ w;
               INSTALLED_APPS := INSTALLED_APPS w;
               app_history := app_history w ++ [c] |}).

(** [os.environ[key]]: the value, or [KeyError(key)], a subclass of
    [Exception] whose [str] is the key between quotes. *)
Definition os_environ_getitem (key : string) : M AppWorld string :=
  fun w =>
    match os_environ w key with
    | Some v => (Normal v, w)
    | None => (Raise (Exn Exception ("'" ++ key ++ "'")), w)
    end.

(** ["Running Kolibri with the following settings: {settings}".format(...)] *)
Definition running_with_settings (settings : string) : string :=
  "Running Kolibri with the following settings: " ++ settings.

Section Ready.

Variable bytes_for_humans : Z -> string.
Variable START_PRAGMAS : string.

(** [KolibriCoreConfig.ready()] *)
Definition ready (OPTIONS : Options) : M AppWorld unit :=
  app_do Signal_connect ;;
  lift_db (activate_pragmas_on_start START_PRAGMAS) ;;
  settings <- os_environ_getitem "DJANGO_SETTINGS_MODULE" ;;
  lift_cache (logger_info (VStr (running_with_settings settings))) ;;
  lift_cache (check_redis_settings bytes_for_humans OPTIONS) ;;
  app_do Filter_defaults_update ;;
  installed_apps <- gets INSTALLED_APPS ;;
  app_do (Register_non_plugins installed_apps) ;;
  app_do Patch_relabeled_clone.

End Ready.

(** ** More observations *)

(** The event is a call to the cache client. *)
Definition is_client_call (ev : event) : bool :=
  match ev with
  | ECall _ _ => true
  | ELog _ _ => false
  end.

(** The event is a log record. *)
Definition is_log (ev : event) : bool :=
  match ev with
  | ECall _ _ => false
  | ELog _ _ => true
  end.

(** What the history holds after the first event that satisfies [p]. *)
Fixpoint after_first (p : event -> bool) (h : list event) : list event :=
  match h with
  | [] => []
  | ev :: t => if p ev then t else after_first p t
  end.

(** The database event is a repair. *)
Definition is_repair (ev : db_event) : bool :=
  match ev with
  | DbCall (Repair_sqlite_db _) _ => true
  | _ => false
  end.

(** * Properties *)

(** ** What the observations mean *)

Lemma first_raise_split (h : list event) (e : exn) (after : list event) :
  first_raise h = Some (e, after) ->
  exists before c,
    h = (before ++ ECall c (Raised e) :: after)%list /\
    count is_raised before = 0%nat.
Proof.
  induction h as [|ev h IH]; simpl; [discriminate|].
  destruct ev as [c [v|e']|l msg].
  - intros H. destruct (IH H) as (before & c' & -> & Hb).
    now exists (ECall c (Returned v) :: before), c'.
  - intros [= <- <-]. now exists [], c.
  - intros H. destruct (IH H) as (before & c' & -> & Hb).
    now exists (ELog l msg :: before), c'.
Qed.

Lemma just_before_split (p : event -> bool) (h : list event) (a : event) :
  just_before p h = Some a ->
  exists before b after,
    h = (before ++ a :: b :: after)%list /\ p b = true.
Proof.
  induction h as [|x h IH]; simpl; [discriminate|].
  destruct h as [|y h]; [discriminate|].
  destruct (p y) eqn:Hp.
  - intros [= <-]. now exists [], y, h.
  - intros H. destruct (IH H) as (before & b & after & Heq & Hb).
    exists (x :: before), b, after. now rewrite Heq.
Qed.


Lemma isinstance_ConnectionError (e : exn) :
  isinstance e ConnectionError = true <-> class_of e = ConnectionError.
Proof. unfold isinstance. destruct (class_of e); simpl; split; congruence. Qed.

(** ** The tuners *)

Section TunerProperties.

Variables NOTIFICATIONS CONNECTION_PRAGMAS START_PRAGMAS : string.


(** C8, as the code has it.  The startup tuner takes the default
    connection.  When its backend is sqlite, the tuner asks for a cursor
    and executes the fixed startup script on it; when both calls return it
    then closes the connection, and returns if the closing returns.  When
    the cursor or the script raises, that exception leaves the tuner at
    once and the connection is not closed.  On any other backend the tuner
    does nothing, and so closes nothing. *)
Theorem startup_tuner (w : DbWorld) :
  let conn := default_connection w in
  let r := activate_pragmas_on_start START_PRAGMAS w in
  (vendor conn = "sqlite" ->
   db_fault_at 0 w = None -> db_fault_at 1 w = None ->
   exists closed,
     db_history (snd r)
       = (db_history w ++
          [DbCall (Cursor conn) (Returned VNone);
           DbCall (Execute conn START_PRAGMAS) (Returned VNone);
           DbCall (Close conn) closed])%list /\
     (db_fault_at 2 w = None -> closed = Returned VNone /\ fst r = Normal tt) /\
     (forall e, db_fault_at 2 w = Some e ->
                closed = Raised e /\ fst r = Raise e)) /\
  (forall e,
      vendor conn = "sqlite" -> db_fault_at 0 w = Some e ->
      fst r = Raise e /\
      db_history (snd r)
        = (db_history w ++ [DbCall (Cursor conn) (Raised e)])%list) /\
  (forall e,
      vendor conn = "sqlite" ->
      db_fault_at 0 w = None -> db_fault_at 1 w = Some e ->
      fst r = Raise e /\
      db_history (snd r)
        = (db_history w ++
           [DbCall (Cursor conn) (Returned VNone);
            DbCall (Execute conn START_PRAGMAS) (Raised e)])%list) /\
  (vendor conn <> "sqlite" -> r = (Normal tt, w)).
Proof.
  intros conn r. subst conn r.
  unfold activate_pragmas_on_start, bind, gets, startup_cursor,
    cursor_execute, connection_close, db_try, db_pop_fault, db_fault_at.
  destruct w as [qc conn fs h]. cbn [default_connection db_faults db_history].
  destruct (String.eqb_spec (vendor conn) "sqlite") as [Hv|Hv].
  2: { repeat split; intros; congruence. }
  destruct fs as [|[e0|] [|[e1|] [|[e2|] fs]]];
    cbn [nth_error db_record db_history db_faults default_connection
         quick_check fst snd app];
    (split; [|split; [|split]]); try congruence;
    intros; try discriminate;
    repeat match goal with
      | H : Some _ = Some _ |- _ => injection H as <-
      end;
    try (eexists; split; [rewrite <- !app_assoc; reflexivity|];
         split; intros; try discriminate;
         repeat match goal with
           | H : Some _ = Some _ |- _ => injection H as <-
           end; split; reflexivity);
    try (split; [reflexivity | now rewrite <- ?app_assoc]).
Qed.

End TunerProperties.


Lemma startup_tuner_witness :
  let conn := {| vendor := "sqlite"; alias := "default" |} in
  let w := {| quick_check := Returned (VStr "ok");
              default_connection := conn;
              db_faults := [];
              db_history := [] |} in
  let r := activate_pragmas_on_start "PRAGMA journal_mode=WAL;" w in
  exists closed,
    db_history (snd r)
      = [DbCall (Cursor conn) (Returned VNone);
         DbCall (Execute conn "PRAGMA journal_mode=WAL;") (Returned VNone);
         DbCall (Close conn) closed] /\
    (db_fault_at 2 w = None -> closed = Returned VNone /\ fst r = Normal tt) /\
    (forall e, db_fault_at 2 w = Some e -> closed = Raised e /\ fst r = Raise e).
Proof.
  intros conn w r.
  destruct (startup_tuner "PRAGMA journal_mode=WAL;" w) as [H _].
  apply H; reflexivity.
Defined.

(** C8, as it is worded, fails.  The default connection is a sqlite one
    and the execution of the startup script raises a database error: the
    error leaves the tuner and the connection is never closed. *)
Lemma startup_close_skipped :
  let conn := {| vendor := "sqlite"; alias := "default" |} in
  let e := Exn DatabaseError "database is locked" in
  let w := {| quick_check := Returned (VStr "ok");
              default_connection := conn;
              db_faults := [None; Some e];
              db_history := [] |} in
  let r := activate_pragmas_on_start "PRAGMA journal_mode=WAL;" w in
  vendor (default_connection w) = "sqlite" /\
  fst r = Raise e /\
  db_history (snd r)
    = [DbCall (Cursor conn) (Returned VNone);
       DbCall (Execute conn "PRAGMA journal_mode=WAL;") (Raised e)] /\
  (forall closed, ~ In (DbCall (Close conn) closed) (db_history (snd r))).
Proof.
  cbv zeta. repeat split.
  intros closed [H|[H|[]]]; discriminate H.
Qed.

(** ** The reconciler *)

(** *** Inversion of the monadic steps *)

Lemma bind_inv {S A B} (m : M S A) (k : A -> M S B) (s s2 : S) (r : result B) :
  bind m k s = (r, s2) ->
  (exists a s1, m s = (Normal a, s1) /\ k a s1 = (r, s2)) \/
  (exists e, m s = (Raise e, s2) /\ r = Raise e).
Proof.
  unfold bind. destruct (m s) as [[a|e] s1]; intros H.
  - left. now exists a, s1.
  - right. exists e. now inversion H.
Qed.

Lemma try_except_inv {S A} (body : M S A) (handler : exn -> M S A)
    (s s2 : S) (r : result A) :
  try_except body handler s = (r, s2) ->
  (exists a, body s = (Normal a, s2) /\ r = Normal a) \/
  (exists e s1, body s = (Raise e, s1) /\ handler e s1 = (r, s2)).
Proof.
  unfold try_except. destruct (body s) as [[a|e] s1]; intros H.
  - left. exists a. now inversion H.
  - right. now exists e, s1.
Qed.

Lemma client_call_inv {A} (c : call) (serve : Server -> A * Server)
    (show : A -> value) (w w2 : World) (r : result A) :
  client_call c serve show w = (r, w2) ->
  (exists e,
      r = Raise e /\
      w2 = {| server := server w; faults := tl (faults w);
              helper := helper w;
              history := (history w ++ [ECall c (Raised e)])%list |}) \/
  (r = Normal (fst (serve (server w))) /\
   w2 = {| server := snd (serve (server w)); faults := tl (faults w);
           helper := helper w;
           history := (history w
                       ++ [ECall c (Returned (show (fst (serve (server w)))))])%list |}).
Proof.
  unfold client_call, pop_fault.
  destruct w as [srv fs h hist]; simpl.
  destruct fs as [|[e|] fs]; simpl; destruct (serve srv) as [a srv'] eqn:Hs;
    simpl; intros H; inversion H; subst; eauto.
Qed.

(** Projections of the worlds a path has built. *)
Ltac norm_in H :=
  cbn [server faults helper history set_helper set_server set_faults record
       initial app fst snd srv_policy srv_maxmemory srv_used_memory changed
       negb andb orb]
    in H.

(** Inversion of [H : m s = (r, s')], the computation [m] first and its
    continuation after: every path of [m] from [s] becomes a goal in which
    [r] and [s'] are what the path computes. *)
Ltac invert_run H :=
  norm_in H;
  lazymatch type of H with
  | bind _ _ _ = (_, _) =>
      let H1 := fresh "Hstep" in
      let H2 := fresh "Hnext" in
      apply bind_inv in H;
      destruct H as [(? & ? & H1 & H2) | (? & H1 & H2)];
      [ invert_run H1; invert_run H2
      | invert_run H1; try discriminate H2; try (injection H2 as H2); subst ]
  | try_except _ _ _ = (_, _) =>
      let H1 := fresh "Hbody" in
      let H2 := fresh "Hnext" in
      apply try_except_inv in H;
      destruct H as [(? & H1 & H2) | (? & ? & H1 & H2)];
      [ invert_run H1; try discriminate H2; try (injection H2 as H2); subst
      | invert_run H1; invert_run H2 ]
  | client_call _ _ _ _ = (_, _) =>
      let Hr := fresh "Hr" in
      let Hw := fresh "Hw" in
      apply client_call_inv in H;
      destruct H as [(? & Hr & Hw) | (Hr & Hw)];
      norm_in Hw; try discriminate Hr; try (injection Hr as Hr); subst
  | (if ?b then _ else _) _ = (_, _) =>
      destruct b eqn:?; invert_run H
  | (_, _) = (_, _) =>
      inversion H; clear H; subst
  | _ =>
      unfold get_master_client, new_RedisSettingsHelper, get_maxmemory_policy,
        set_maxmemory_policy, get_maxmemory, set_maxmemory, get_used_memory,
        mark_changed, helper_changed, logger_warning, modify, ret, raise,
        check_redis_settings_try, check_redis_settings_except in H;
      invert_run H
  end.

(** Every path of a run of the reconciler, as goals. *)
Ltac paths :=
  unfold run;
  let Hrun := fresh "Hrun" in
  destruct (check_redis_settings _ _ _) as [? ?] eqn:Hrun;
  unfold check_redis_settings in Hrun;
  invert_run Hrun.

(** Facts out of the tests a path has taken. *)
Ltac path_facts :=
  repeat match goal with
    | H : _ && _ = true |- _ => apply andb_prop in H; destruct H
    | H : _ && _ = false |- _ => apply andb_false_iff in H; destruct H
    | H : _ || _ = true |- _ => apply orb_prop in H; destruct H
    | H : _ || _ = false |- _ => apply orb_false_iff in H; destruct H
    | H : negb _ = true |- _ => apply negb_true_iff in H
    | H : negb _ = false |- _ => apply negb_false_iff in H
    | H : (_ =? _)%string = true |- _ => apply String.eqb_eq in H
    | H : (_ =? _)%string = false |- _ => apply String.eqb_neq in H
    | H : (_ =? _)%Z = true |- _ => apply Z.eqb_eq in H
    | H : (_ =? _)%Z = false |- _ => apply Z.eqb_neq in H
    | H : (_ <? _)%Z = true |- _ => apply Z.ltb_lt in H
    | H : (_ <? _)%Z = false |- _ => apply Z.ltb_ge in H
    | H : (_ >? _)%Z = true |- _ => apply Z.gtb_gt in H
    | H : (_ >? _)%Z = false |- _ => rewrite Z.gtb_ltb in H; apply Z.ltb_ge in H
    end.

(** Observations on the history of a path. *)
Ltac observe :=
  cbn [count filter length is_call call_eqb is_set_policy is_set_maxmemory
       is_write is_raised orb andb negb returned just_before first_raise
       snd fst history helper server changed srv_policy srv_maxmemory
       srv_used_memory record set_helper set_server set_faults initial app]
    in *;
  rewrite ?String.eqb_refl, ?Z.eqb_refl in *;
  cbn [count filter length] in *.

(** An event of the history that is not the one looked for. *)
Ltac not_in_log H :=
  cbn [In] in H; decompose sum H; try discriminate; try contradiction.

Ltac finish :=
  repeat match goal with
    | |- _ /\ _ => split
    | |- _ <-> _ => split
    | |- forall _, _ => intro
    | H : Some _ = Some _ |- _ => injection H as H
    | H : VInt _ = VInt _ |- _ => injection H as H
    | H : VStr _ = VStr _ |- _ => injection H as H
    end;
  subst;
  try reflexivity; try discriminate; try congruence; try lia;
  try solve [cbn [In]; auto 10];
  try match goal with
    | H : In _ _ |- _ => solve [not_in_log H]
    end.

(** *** A backend other than redis, and a server already in order *)

Section ReconcilerProperties.

Variable bytes_for_humans : Z -> string.

Lemma other_backend_is_noop (OPTIONS : Options) (srv : Server)
    (fs : list (option exn)) :
  CACHE_BACKEND OPTIONS <> "redis" ->
  run bytes_for_humans OPTIONS srv fs = (Normal tt, initial srv fs).
Proof.
  intros Hb. unfold run, check_redis_settings.
  apply String.eqb_neq in Hb. now rewrite Hb.
Qed.

Lemma clean_run_settles (OPTIONS : Options) (srv : Server)
    (fs : list (option exn)) :
  let w := snd (run bytes_for_humans OPTIONS srv fs) in
  CACHE_BACKEND OPTIONS = "redis" ->
  count is_raised (history w) = 0%nat ->
  settled OPTIONS (server w).
Proof.
  intros w Hredis. subst w. unfold settled. paths.
  all: observe; try discriminate; intros _; path_facts; try congruence.
  all: split; auto; try (left; lia).
Qed.

Lemma settled_run_writes_nothing (OPTIONS : Options) (srv : Server)
    (fs : list (option exn)) :
  let w := snd (run bytes_for_humans OPTIONS srv fs) in
  settled OPTIONS srv ->
  count is_write (history w) = 0%nat /\ server w = srv.
Proof.
  intros w [Hp Hm]. subst w. paths.
  all: observe; path_facts; try (split; reflexivity).
  all: try solve [destruct Hp; congruence].
  all: try solve [destruct Hm; [lia | congruence]].
Qed.

(** *** The claims on the reconciler *)

(** C1.  A run with the redis backend that fetched the live policy [live].
    If the desired policy is not empty and is not [live], the run makes
    exactly one [set_policy] call, it carries the desired policy, and the
    helper's flag [changed] is true at the end.  If the desired policy is
    empty or is [live], the run makes no [set_policy] call, and it logs the
    warning that recommends an eviction policy (allkeys-lru) exactly when
    [live] is "noeviction". *)
Theorem policy_reconciled (OPTIONS : Options) (srv : Server)
    (fs : list (option exn)) (live : string) :
  let w := snd (run bytes_for_humans OPTIONS srv fs) in
  let desired := CACHE_REDIS_MAXMEMORY_POLICY OPTIONS in
  CACHE_BACKEND OPTIONS = "redis" ->
  returned Get_policy (history w) = Some (VStr live) ->
  (desired <> "" /\ desired <> live ->
   count is_set_policy (history w) = 1%nat /\
   count (is_call (Set_policy desired)) (history w) = 1%nat /\
   helper w = Some {| changed := true |}) /\
  (desired = "" \/ desired = live ->
   count is_set_policy (history w) = 0%nat /\
   (In (ELog WARNING (VStr NO_POLICY_WARNING)) (history w)
    <-> live = "noeviction")).
Proof.
  intros w desired Hredis. subst w desired. paths.
  all: cbn [snd history returned call_eqb]; try discriminate.
  all: intros [= <-]; path_facts; try congruence.
  all: split; [intros [Hne1 Hne2] | intros Hor]; try congruence.
  all: try solve [destruct Hor; congruence].
  all: observe; finish.
Qed.

(** C2, as the code has it.  A run with the redis backend that fetched the
    live maximum [live].  If the desired maximum is above 0 and is not
    [live], the run asks for the used memory, once; if that call returns
    [used], the run makes exactly one [set_maxmemory] call, it carries the
    desired maximum, and when [used] exceeds the desired maximum the
    warning citing both values, rendered by [bytes_for_humans], is the
    event right before that call; if that call does not return, the run
    makes no [set_maxmemory] call.  Otherwise the run makes no
    [set_maxmemory] call, and it logs the warning that no maximum memory is
    configured exactly when [live] is 0. *)
Theorem maxmemory_reconciled (OPTIONS : Options) (srv : Server)
    (fs : list (option exn)) (live : Z) :
  let w := snd (run bytes_for_humans OPTIONS srv fs) in
  let desired := CACHE_REDIS_MAXMEMORY OPTIONS in
  CACHE_BACKEND OPTIONS = "redis" ->
  returned Get_max_memory (history w) = Some (VInt live) ->
  (desired > 0 /\ desired <> live ->
   count (is_call Get_used_memory) (history w) = 1%nat /\
   (forall used,
       returned Get_used_memory (history w) = Some (VInt used) ->
       count is_set_maxmemory (history w) = 1%nat /\
       count (is_call (Set_max_memory desired)) (history w) = 1%nat /\
       (used > desired ->
        just_before is_set_maxmemory (history w) =
          Some (ELog WARNING
                  (VStr (used_memory_warning bytes_for_humans used desired))))) /\
   (returned Get_used_memory (history w) = None ->
    count is_set_maxmemory (history w) = 0%nat)) /\
  (~ (desired > 0 /\ desired <> live) ->
   count is_set_maxmemory (history w) = 0%nat /\
   (In (ELog WARNING (VStr NO_MAXMEMORY_WARNING)) (history w) <-> live = 0)).
Proof.
  intros w desired Hredis. subst w desired. paths.
  all: cbn [snd history returned call_eqb]; try discriminate.
  all: intros [= <-]; path_facts; try congruence.
  all: split; [intros [Hpos Hne] | intros Hnot]; try congruence; try lia.
  all: try solve [exfalso; apply Hnot; split; congruence].
  all: observe; finish.
Qed.

(** C3.  A run in which no call raises returns, and it logs the
    consolidated warning, the one that points at the Redis configuration
    documentation, exactly once when the helper's flag [changed] is false
    at the end and the server is left with a maximum memory of 0 or with
    the policy "noeviction"; in every other case it does not log it. *)
Theorem consolidated_warning (OPTIONS : Options) (srv : Server)
    (fs : list (option exn)) :
  let r := run bytes_for_humans OPTIONS srv fs in
  let w := snd r in
  let due :=
    helper w = Some {| changed := false |} /\
    (srv_maxmemory (server w) = 0 \/ srv_policy (server w) = "noeviction") in
  count is_raised (history w) = 0%nat ->
  fst r = Normal tt /\
  (due -> count (is_warning PROBLEMATIC_WARNING) (history w) = 1%nat) /\
  (~ due -> count (is_warning PROBLEMATIC_WARNING) (history w) = 0%nat).
Proof.
  intros r w due. subst due w r. paths.
  all: observe; try discriminate; intros _; path_facts.
  all: split; [reflexivity|].
  all: split; [intros [Hch Hst] | intros Hnot]; observe.
  all: try discriminate; try reflexivity.
  all: try solve [destruct Hst; congruence].
  all: try solve [exfalso; apply Hnot; auto].
Qed.

(** C4.  A run in which a call to the cache client raises a connection
    error [e]: after that call the run logs one warning, which carries the
    message of [e], and nothing else, and then the run ends by raising a
    [RedisConnectionError] with that message and with [e] as its cause. *)
Theorem connection_error_wrapped (OPTIONS : Options) (srv : Server)
    (fs : list (option exn)) (e : exn) (after : list event) :
  let r := run bytes_for_humans OPTIONS srv fs in
  first_raise (history (snd r)) = Some (e, after) ->
  class_of e = ConnectionError ->
  after = [ELog WARNING (VStr (unable_to_connect e))] /\
  fst r = Raise (ExnFrom RedisConnectionError (unable_to_connect e) e).
Proof.
  intros r. subst r. paths.
  all: observe; try discriminate.
  all: intros [= <- <-] Hclass.
  all: try (apply isinstance_ConnectionError in Hclass; congruence).
  all: split; reflexivity.
Qed.

(** C5.  A run in which a call raises an exception [e] that is not a
    connection error: after that call the run logs one warning and one
    record of [e] itself, and nothing else, and the run returns: no
    exception leaves the reconciler. *)
Theorem unexpected_exception_swallowed (OPTIONS : Options) (srv : Server)
    (fs : list (option exn)) (e : exn) (after : list event) :
  let r := run bytes_for_humans OPTIONS srv fs in
  first_raise (history (snd r)) = Some (e, after) ->
  class_of e <> ConnectionError ->
  after = [ELog WARNING (VStr UNABLE_TO_CHECK_WARNING); ELog WARNING (VExn e)] /\
  fst r = Normal tt.
Proof.
  intros r. subst r. paths.
  all: observe; try discriminate.
  all: intros [= <- <-] Hclass.
  all: try (exfalso; apply Hclass; now apply isinstance_ConnectionError).
  all: split; reflexivity.
Qed.

(** C6.  At the end of every run, the helper's flag [changed] is true if
    and only if the run sent at least one corrective write, [set_policy] or
    [set_maxmemory], to the cache server; a run that constructs no helper
    sends no write. *)
Theorem changed_iff_write_sent (OPTIONS : Options) (srv : Server)
    (fs : list (option exn)) :
  let w := snd (run bytes_for_humans OPTIONS srv fs) in
  match helper w with
  | Some h => changed h = true <-> (0 < count is_write (history w))%nat
  | None => count is_write (history w) = 0%nat
  end.
Proof.
  intros w. subst w. paths.
  all: observe; try reflexivity.
  all: split; intros; try reflexivity; try lia; try discriminate.
Qed.

(** C9.  The reconciler is idempotent.  After a first run that returns and
    in which no call raises, a second run with the same configuration,
    against a server whose policy and maximum memory are those the first
    run left, sends no corrective write and leaves the server as it found
    it, whatever the server's memory use and whichever calls fail. *)
Theorem reconciler_idempotent (OPTIONS : Options) (srv srv' : Server)
    (fs fs' : list (option exn)) :
  let run1 := run bytes_for_humans OPTIONS srv fs in
  let run2 := run bytes_for_humans OPTIONS srv' fs' in
  fst run1 = Normal tt ->
  count is_raised (history (snd run1)) = 0%nat ->
  srv_policy srv' = srv_policy (server (snd run1)) ->
  srv_maxmemory srv' = srv_maxmemory (server (snd run1)) ->
  count is_write (history (snd run2)) = 0%nat /\
  server (snd run2) = srv'.
Proof.
  intros run1 run2 _ Hclean Hpolicy Hmax. subst run1 run2.
  destruct (String.eqb_spec (CACHE_BACKEND OPTIONS) "redis") as [Hredis|Hother].
  - apply settled_run_writes_nothing.
    destruct (clean_run_settles OPTIONS srv fs Hredis Hclean) as [Hp Hm].
    unfold settled. rewrite Hpolicy, Hmax. now split.
  - rewrite (other_backend_is_noop OPTIONS srv' fs' Hother). now split.
Qed.

(** C10.  The reconciler is not atomic on error.  There is a run in which
    the policy correction reaches the server, the next call to the cache
    client (the fetch of the maximum memory) raises a connection error, and
    the run ends by raising [RedisConnectionError] while the server keeps
    the policy that was written.  And in every run, however it ends, a
    policy write that returned is still on the server at the end: nothing
    is rolled back. *)
Theorem failure_keeps_policy_write :
  (exists OPTIONS srv fs e,
      let r := run bytes_for_humans OPTIONS srv fs in
      history (snd r) =
        [ECall Get_master_client (Returned VNone);
         ECall Get_policy (Returned (VStr (srv_policy srv)));
         ECall (Set_policy (CACHE_REDIS_MAXMEMORY_POLICY OPTIONS))
               (Returned VNone);
         ECall Get_max_memory (Raised e);
         ELog WARNING (VStr (unable_to_connect e))] /\
      class_of e = ConnectionError /\
      fst r = Raise (ExnFrom RedisConnectionError (unable_to_connect e) e) /\
      srv_policy srv <> CACHE_REDIS_MAXMEMORY_POLICY OPTIONS /\
      srv_policy (server (snd r)) = CACHE_REDIS_MAXMEMORY_POLICY OPTIONS) /\
  (forall OPTIONS srv fs policy,
      let w := snd (run bytes_for_humans OPTIONS srv fs) in
      In (ECall (Set_policy policy) (Returned VNone)) (history w) ->
      srv_policy (server w) = policy).
Proof.
  split.
  - exists {| CACHE_BACKEND := "redis";
              CACHE_REDIS_MAXMEMORY := 0;
              CACHE_REDIS_MAXMEMORY_POLICY := "allkeys-lru" |},
           {| srv_policy := "noeviction";
              srv_maxmemory := 0;
              srv_used_memory := 1024 |},
           [None; None; None; Some (Exn ConnectionError "Connection refused")],
           (Exn ConnectionError "Connection refused").
    repeat split. discriminate.
  - intros OPTIONS srv fs policy w. subst w. paths.
    all: observe; intros Hin; not_in_log Hin.
    all: match goal with
         | H : ECall _ _ = ECall _ _ |- _ => now injection H as <-
         end.
Qed.

End ReconcilerProperties.

(** ** Runs on concrete inputs *)

(** C2, as it is worded, fails.  The configuration asks for a maximum of
    100 bytes, the server has none, and the fetch of the used memory raises
    a connection error: the live maximum was fetched, the desired maximum
    is above 0 and differs from it, yet the used memory is not obtained and
    the run makes no [set_maxmemory] call at all. *)
Lemma maxmemory_write_skipped :
  let OPTIONS := {| CACHE_BACKEND := "redis";
                    CACHE_REDIS_MAXMEMORY := 100;
                    CACHE_REDIS_MAXMEMORY_POLICY := "" |} in
  let srv := {| srv_policy := "allkeys-lru";
                srv_maxmemory := 0;
                srv_used_memory := 500 |} in
  let fs := [None; None; None; Some (Exn ConnectionError "Connection refused")] in
  let w := snd (run bytes_plain OPTIONS srv fs) in
  CACHE_BACKEND OPTIONS = "redis" /\
  returned Get_max_memory (history w) = Some (VInt 0) /\
  (CACHE_REDIS_MAXMEMORY OPTIONS > 0 /\ CACHE_REDIS_MAXMEMORY OPTIONS <> 0) /\
  returned Get_used_memory (history w) = None /\
  count (is_call (Set_max_memory (CACHE_REDIS_MAXMEMORY OPTIONS))) (history w)
    <> 1%nat /\
  count is_set_maxmemory (history w) = 0%nat.
Proof.
  cbv zeta.
  repeat split; try reflexivity; try discriminate.
Qed.

Lemma policy_reconciled_witness :
  let OPTIONS := {| CACHE_BACKEND := "redis";
                    CACHE_REDIS_MAXMEMORY := 0;
                    CACHE_REDIS_MAXMEMORY_POLICY := "allkeys-lru" |} in
  let srv := {| srv_policy := "noeviction";
                srv_maxmemory := 0;
                srv_used_memory := 1024 |} in
  let w := snd (run bytes_plain OPTIONS srv []) in
  count is_set_policy (history w) = 1%nat /\
  count (is_call (Set_policy "allkeys-lru")) (history w) = 1%nat /\
  helper w = Some {| changed := true |}.
Proof.
  intros OPTIONS srv w.
  destruct (policy_reconciled bytes_plain OPTIONS srv [] "noeviction"
              eq_refl eq_refl) as [H _].
  apply H. split; discriminate.
Defined.

Lemma maxmemory_reconciled_witness :
  let OPTIONS := {| CACHE_BACKEND := "redis";
                    CACHE_REDIS_MAXMEMORY := 100;
                    CACHE_REDIS_MAXMEMORY_POLICY := "" |} in
  let srv := {| srv_policy := "allkeys-lru";
                srv_maxmemory := 0;
                srv_used_memory := 500 |} in
  let w := snd (run bytes_plain OPTIONS srv []) in
  count is_set_maxmemory (history w) = 1%nat /\
  count (is_call (Set_max_memory 100)) (history w) = 1%nat /\
  (500 > 100 ->
   just_before is_set_maxmemory (history w) =
     Some (ELog WARNING
             (VStr "Redis was using 500B before setting `maxmemory` configuration of 100B"))).
Proof.
  intros OPTIONS srv w.
  destruct (maxmemory_reconciled bytes_plain OPTIONS srv [] 0
              eq_refl eq_refl) as [H _].
  destruct H as (_ & H & _); [split; [reflexivity | discriminate]|].
  apply (H 500). reflexivity.
Defined.

Lemma consolidated_warning_witness :
  let OPTIONS := {| CACHE_BACKEND := "redis";
                    CACHE_REDIS_MAXMEMORY := 0;
                    CACHE_REDIS_MAXMEMORY_POLICY := "" |} in
  let srv := {| srv_policy := "noeviction";
                srv_maxmemory := 0;
                srv_used_memory := 1024 |} in
  let w := snd (run bytes_plain OPTIONS srv []) in
  count (is_warning PROBLEMATIC_WARNING) (history w) = 1%nat.
Proof.
  intros OPTIONS srv w.
  destruct (consolidated_warning bytes_plain OPTIONS srv [] eq_refl)
    as (_ & H & _).
  apply H. split; [reflexivity | left; reflexivity].
Defined.

Lemma connection_error_wrapped_witness :
  let OPTIONS := {| CACHE_BACKEND := "redis";
                    CACHE_REDIS_MAXMEMORY := 0;
                    CACHE_REDIS_MAXMEMORY_POLICY := "" |} in
  let srv := {| srv_policy := "noeviction";
                srv_maxmemory := 0;
                srv_used_memory := 1024 |} in
  let e := Exn ConnectionError "Connection refused" in
  fst (run bytes_plain OPTIONS srv [None; Some e]) =
    Raise (ExnFrom RedisConnectionError
             "Unable to connect to Redis: Connection refused" e).
Proof.
  intros OPTIONS srv e.
  apply (connection_error_wrapped bytes_plain OPTIONS srv [None; Some e] e
           [ELog WARNING (VStr "Unable to connect to Redis: Connection refused")]
           eq_refl eq_refl).
Defined.

Lemma unexpected_exception_swallowed_witness :
  let OPTIONS := {| CACHE_BACKEND := "redis";
                    CACHE_REDIS_MAXMEMORY := 0;
                    CACHE_REDIS_MAXMEMORY_POLICY := "" |} in
  let srv := {| srv_policy := "noeviction";
                srv_maxmemory := 0;
                srv_used_memory := 1024 |} in
  let e := Exn Exception "unknown command" in
  fst (run bytes_plain OPTIONS srv [None; None; Some e]) = Normal tt.
Proof.
  intros OPTIONS srv e.
  apply (unexpected_exception_swallowed bytes_plain OPTIONS srv
           [None; None; Some e] e
           [ELog WARNING (VStr UNABLE_TO_CHECK_WARNING); ELog WARNING (VExn e)]
           eq_refl).
  discriminate.
Defined.

Lemma reconciler_idempotent_witness :
  let OPTIONS := {| CACHE_BACKEND := "redis";
                    CACHE_REDIS_MAXMEMORY := 100;
                    CACHE_REDIS_MAXMEMORY_POLICY := "allkeys-lru" |} in
  let srv := {| srv_policy := "noeviction";
                srv_maxmemory := 0;
                srv_used_memory := 500 |} in
  let srv' := {| srv_policy := "allkeys-lru";
                 srv_maxmemory := 100;
                 srv_used_memory := 90 |} in
  let run2 := run bytes_plain OPTIONS srv' [] in
  count is_write (history (snd run2)) = 0%nat /\ server (snd run2) = srv'.
Proof.
  intros OPTIONS srv srv' run2.
  apply (reconciler_idempotent bytes_plain OPTIONS srv srv' [] []
           eq_refl eq_refl eq_refl eq_refl).
Defined.

(** * Further properties *)

(** ** The per-connection tuner, case by case *)

Section MoreTunerProperties.

Variables NOTIFICATIONS CONNECTION_PRAGMAS : string.


(** X2.  On a sqlite connection with the reserved alias whose integrity
    probe raises an exception that is not a database error, the tuner
    raises that very exception right after the probe: it calls no repair
    and it does not execute the tuning script. *)
Theorem probe_exception_propagates (conn : Connection) (w : DbWorld) (e : exn) :
  vendor conn = "sqlite" -> alias conn = NOTIFICATIONS ->
  quick_check w = Raised e -> class_of e <> DatabaseError ->
  fst (activate_pragmas_per_connection NOTIFICATIONS CONNECTION_PRAGMAS conn w)
    = Raise e /\
  db_history
    (snd (activate_pragmas_per_connection NOTIFICATIONS CONNECTION_PRAGMAS conn w))
    = (db_history w ++
       [DbCall (Cursor conn) (Returned VNone);
        DbCall (Execute conn "PRAGMA quick_check") (Raised e)])%list.
Proof.
  intros Hv Ha Hq Hc. unfold activate_pragmas_per_connection.
  rewrite Hv, Ha, !String.eqb_refl.
  unfold bind, try_except, cursor_quick_check, connection_cursor, db_do, modify.
  simpl. rewrite Hq. simpl.
  destruct (class_of e) eqn:Hcls; try congruence; simpl.
  all: split; [reflexivity | now rewrite <- !app_assoc].
Qed.

(** X3.  Whatever the connection and the database, the tuner only adds to
    the history, it repairs the connection if and only if the backend is
    sqlite, the alias is the reserved one and the integrity probe fails,
    and it never repairs more than once. *)
Theorem repair_only_when_probe_fails (conn : Connection) (w : DbWorld) :
  exists added,
    db_history
      (snd (activate_pragmas_per_connection NOTIFICATIONS CONNECTION_PRAGMAS conn w))
      = (db_history w ++ added)%list /\
    (In (DbCall (Repair_sqlite_db conn) (Returned VNone)) added <->
     vendor conn = "sqlite" /\ alias conn = NOTIFICATIONS /\
     probe_fails (quick_check w)) /\
    (length (filter is_repair added) <= 1)%nat.
Proof.
  unfold activate_pragmas_per_connection.
  destruct (String.eqb_spec (vendor conn) "sqlite") as [Hv|Hv].
  2: { exists []. rewrite app_nil_r. simpl. repeat split; try lia; tauto. }
  destruct (String.eqb_spec (alias conn) NOTIFICATIONS) as [Ha|Ha].
  2: { eexists. split.
       - unfold bind, connection_cursor, cursor_executescript, db_do, modify, ret.
         simpl. rewrite <- !app_assoc. reflexivity.
       - simpl. split; [|lia]. split; [|tauto].
         intros [H|[H|[]]]; discriminate H. }
  unfold bind, try_except, cursor_quick_check, connection_cursor,
    cursor_executescript, repair_sqlite_db, db_do, modify, ret, raise.
  simpl.
  destruct (quick_check w) as [v|e] eqn:Hq; simpl.
  - destruct (value_ne_str v "ok") eqn:Hne; simpl.
    + eexists. split; [rewrite <- !app_assoc; reflexivity|]. simpl.
      split; [|lia]. split; [intros _|tauto].
      repeat split; trivial. intros ->. vm_compute in Hne. discriminate Hne.
    + eexists. split; [rewrite <- !app_assoc; reflexivity|]. simpl.
      split; [|lia]. split.
      * intros [H|[H|[H|[H|[]]]]]; discriminate H.
      * intros (_ & _ & Hp). exfalso.
        destruct v as [|t|n|x]; try discriminate Hne.
        simpl in Hne. apply negb_false_iff, String.eqb_eq in Hne. congruence.
  - destruct (exn_class_eqb (class_of e) DatabaseError) eqn:Hc; simpl.
    + eexists. split; [rewrite <- !app_assoc; reflexivity|]. simpl.
      split; [|lia]. split; [intros _|tauto].
      repeat split; trivial. now destruct (class_of e).
    + eexists. split; [rewrite <- !app_assoc; reflexivity|]. simpl.
      split; [|lia]. split.
      * intros [H|[H|[]]]; discriminate H.
      * intros (_ & _ & Hp). rewrite Hp in Hc. discriminate Hc.
Qed.

End MoreTunerProperties.


Lemma probe_exception_propagates_witness :
  let conn := {| vendor := "sqlite"; alias := "notifications" |} in
  let e := Exn Exception "'NoneType' object is not subscriptable" in
  let w := {| quick_check := Raised e;
              default_connection := conn;
              db_faults := [];
              db_history := [] |} in
  fst (activate_pragmas_per_connection "notifications"
         "PRAGMA wal_autocheckpoint=500;" conn w) = Raise e.
Proof.
  intros conn e w.
  apply (probe_exception_propagates "notifications"
           "PRAGMA wal_autocheckpoint=500;" conn w e eq_refl eq_refl eq_refl).
  discriminate.
Defined.

(** ** The reconciler: what it writes, and when *)

(** Observations on the history of a path, the later ones included. *)
Ltac observe_all :=
  cbn [count filter length is_call call_eqb is_set_policy is_set_maxmemory
       is_write is_raised is_client_call is_log after_first orb andb negb
       returned just_before first_raise snd fst history helper server changed
       srv_policy srv_maxmemory srv_used_memory record set_helper set_server
       set_faults initial app]
    in *;
  rewrite ?String.eqb_refl, ?Z.eqb_refl in *;
  cbn [count filter length] in *.

Section MoreReconcilerProperties.

Variable bytes_for_humans : Z -> string.

(** X4.  With a backend other than redis a run returns at once and leaves
    the world as it found it: no call to the cache client, no log record.
    With the redis backend the first thing a run does is to ask for the
    master client. *)
Theorem client_called_only_for_redis (OPTIONS : Options) (srv : Server)
    (fs : list (option exn)) :
  let r := run bytes_for_humans OPTIONS srv fs in
  (CACHE_BACKEND OPTIONS <> "redis" -> r = (Normal tt, initial srv fs)) /\
  (CACHE_BACKEND OPTIONS = "redis" ->
   exists o rest, history (snd r) = ECall Get_master_client o :: rest).
Proof.
  intros r. subst r. split; intros Hb.
  - unfold run, check_redis_settings.
    apply String.eqb_neq in Hb. now rewrite Hb.
  - paths; path_facts; try congruence.
    all: observe; eauto.
Qed.

(** X5.  A run sends a policy to the server only if that policy is the
    configured one, it is not empty, and the live policy was fetched before
    and differs from it. *)
Theorem policy_written_only_when_needed (OPTIONS : Options) (srv : Server)
    (fs : list (option exn)) (policy : string) (o : outcome) :
  let w := snd (run bytes_for_humans OPTIONS srv fs) in
  In (ECall (Set_policy policy) o) (history w) ->
  policy = CACHE_REDIS_MAXMEMORY_POLICY OPTIONS /\
  policy <> "" /\
  returned Get_policy (history w) = Some (VStr (srv_policy srv)) /\
  srv_policy srv <> policy.
Proof.
  intros w. subst w. paths.
  all: observe; intros Hin; not_in_log Hin.
  all: match goal with
       | H : ECall _ _ = ECall _ _ |- _ => injection H as <- <-
       end.
  all: path_facts; repeat split; congruence.
Qed.

(** X6.  A run sends a maximum memory to the server only if that maximum
    is the configured one, it is above 0, the live maximum was fetched
    before and differs from it, and the used memory was fetched before. *)
Theorem maxmemory_written_only_when_needed (OPTIONS : Options) (srv : Server)
    (fs : list (option exn)) (maxmemory : Z) (o : outcome) :
  let w := snd (run bytes_for_humans OPTIONS srv fs) in
  In (ECall (Set_max_memory maxmemory) o) (history w) ->
  maxmemory = CACHE_REDIS_MAXMEMORY OPTIONS /\
  maxmemory > 0 /\
  returned Get_max_memory (history w) = Some (VInt (srv_maxmemory srv)) /\
  srv_maxmemory srv <> maxmemory /\
  returned Get_used_memory (history w) = Some (VInt (srv_used_memory srv)).
Proof.
  intros w. subst w. paths.
  all: observe; intros Hin; not_in_log Hin.
  all: match goal with
       | H : ECall _ _ = ECall _ _ |- _ => injection H as <- <-
       end.
  all: path_facts; repeat split; congruence.
Qed.

(** X7.  After a run with the redis backend in which no call raises, the
    server has the configured policy unless none is configured, and the
    configured maximum memory unless none above 0 is configured; a setting
    that is not configured keeps the value it had. *)
Theorem clean_run_final_state (OPTIONS : Options) (srv : Server)
    (fs : list (option exn)) :
  let w := snd (run bytes_for_humans OPTIONS srv fs) in
  CACHE_BACKEND OPTIONS = "redis" ->
  count is_raised (history w) = 0%nat ->
  srv_policy (server w) =
    (if (CACHE_REDIS_MAXMEMORY_POLICY OPTIONS =? "")%string
     then srv_policy srv else CACHE_REDIS_MAXMEMORY_POLICY OPTIONS) /\
  srv_maxmemory (server w) =
    (if CACHE_REDIS_MAXMEMORY OPTIONS >? 0
     then CACHE_REDIS_MAXMEMORY OPTIONS else srv_maxmemory srv).
Proof.
  intros w Hredis. subst w. paths.
  all: observe; try discriminate; intros _.
  all: repeat match goal with
         | H : context [(?a =? ?b)%string] |- context [(?a =? ?b)%string] =>
             destruct (String.eqb_spec a b)
         | H : context [?a >? ?b] |- context [?a >? ?b] =>
             destruct (Z.gtb_spec a b)
         end.
  all: cbn [negb andb orb] in *; path_facts; try congruence; try lia.
  all: repeat split; try congruence.
Qed.

(** X8.  Whatever happens in a run, also when it fails half way: the
    server's policy is the one it had or the configured, non-empty one; its
    maximum memory is the one it had or the configured one above 0; and a
    run that sends no write leaves both settings as they were. *)
Theorem run_touches_only_configured_settings (OPTIONS : Options)
    (srv : Server) (fs : list (option exn)) :
  let w := snd (run bytes_for_humans OPTIONS srv fs) in
  (srv_policy (server w) = srv_policy srv \/
   (CACHE_REDIS_MAXMEMORY_POLICY OPTIONS <> "" /\
    srv_policy (server w) = CACHE_REDIS_MAXMEMORY_POLICY OPTIONS)) /\
  (srv_maxmemory (server w) = srv_maxmemory srv \/
   (CACHE_REDIS_MAXMEMORY OPTIONS > 0 /\
    srv_maxmemory (server w) = CACHE_REDIS_MAXMEMORY OPTIONS)) /\
  (count is_write (history w) = 0%nat ->
   srv_policy (server w) = srv_policy srv /\
   srv_maxmemory (server w) = srv_maxmemory srv).
Proof.
  intros w. subst w. paths.
  all: observe; path_facts.
  all: repeat split; auto; try discriminate.
  all: try (right; split; [congruence || lia | reflexivity]).
Qed.

(** X9.  A run issues each operation of the cache client at most once, so
    at most six calls in all, and at most one of them raises: a call that
    fails is not tried again. *)
Theorem each_operation_at_most_once (OPTIONS : Options) (srv : Server)
    (fs : list (option exn)) :
  let h := history (snd (run bytes_for_humans OPTIONS srv fs)) in
  (count (is_call Get_master_client) h <= 1)%nat /\
  (count (is_call Get_policy) h <= 1)%nat /\
  (count is_set_policy h <= 1)%nat /\
  (count (is_call Get_max_memory) h <= 1)%nat /\
  (count (is_call Get_used_memory) h <= 1)%nat /\
  (count is_set_maxmemory h <= 1)%nat /\
  (count is_raised h <= 1)%nat /\
  (count is_client_call h <= 6)%nat.
Proof.
  intros h. subst h. paths.
  all: observe_all; repeat split; lia.
Qed.

(** X10.  The warning that cites the used memory is in the log only if the
    used memory was fetched and exceeds the configured maximum, which is
    above 0; and the warning does not stop the write: in such a run the
    maximum memory is sent to the server all the same. *)
Theorem used_memory_warning_only_when_exceeded (OPTIONS : Options)
    (srv : Server) (fs : list (option exn)) (used maxmemory : Z) :
  let w := snd (run bytes_for_humans OPTIONS srv fs) in
  In (ELog WARNING
        (VStr (used_memory_warning bytes_for_humans used maxmemory)))
     (history w) ->
  returned Get_used_memory (history w) = Some (VInt (srv_used_memory srv)) /\
  0 < CACHE_REDIS_MAXMEMORY OPTIONS < srv_used_memory srv /\
  count is_set_maxmemory (history w) = 1%nat.
Proof.
  intros w. subst w. paths.
  all: observe; intros Hin; cbn [In] in Hin; decompose sum Hin.
  all: try contradiction; try discriminate.
  all: try match goal with
         | H : ELog _ (VStr _) = ELog _ (VStr _) |- _ =>
             injection H as H;
             unfold used_memory_warning, unable_to_connect, NO_POLICY_WARNING,
               NO_MAXMEMORY_WARNING, PROBLEMATIC_WARNING,
               UNABLE_TO_CHECK_WARNING in H;
             cbn [String.append] in H; try discriminate H
         end.
  all: path_facts; repeat split; try reflexivity; lia.
Qed.

(** X11.  No false alarm: when the server is off its defaults (its policy
    is not "noeviction", its maximum memory is not 0) and its memory use
    does not exceed a configured maximum, a run in which no call raises
    logs nothing at all, whether it corrects the server or not. *)
Theorem server_off_defaults_is_silent (OPTIONS : Options) (srv : Server)
    (fs : list (option exn)) :
  let w := snd (run bytes_for_humans OPTIONS srv fs) in
  srv_policy srv <> "noeviction" ->
  srv_maxmemory srv <> 0 ->
  CACHE_REDIS_MAXMEMORY OPTIONS <= 0 \/
    srv_used_memory srv <= CACHE_REDIS_MAXMEMORY OPTIONS ->
  count is_raised (history w) = 0%nat ->
  count is_log (history w) = 0%nat.
Proof.
  intros w Hp Hm Hu. subst w. paths.
  all: observe_all; try discriminate; intros _; try reflexivity.
  all: path_facts; try congruence; try lia.
Qed.

(** X12.  The policy is settled before the memory limit is looked at: once
    the live maximum memory has been asked for, a run neither fetches nor
    writes the policy any more, and the write of the maximum memory, when
    there is one, comes after that fetch. *)
Theorem policy_settled_before_memory (OPTIONS : Options) (srv : Server)
    (fs : list (option exn)) :
  let h := history (snd (run bytes_for_humans OPTIONS srv fs)) in
  let later := after_first (is_call Get_max_memory) h in
  count (is_call Get_policy) later = 0%nat /\
  count is_set_policy later = 0%nat /\
  ((0 < count is_set_maxmemory h)%nat ->
   count is_set_maxmemory later = 1%nat).
Proof.
  intros h later. subst later h. paths.
  all: observe_all; repeat split; try reflexivity; intros; lia.
Qed.

End MoreReconcilerProperties.

Lemma policy_written_only_when_needed_witness :
  let OPTIONS := {| CACHE_BACKEND := "redis";
                    CACHE_REDIS_MAXMEMORY := 0;
                    CACHE_REDIS_MAXMEMORY_POLICY := "allkeys-lru" |} in
  let srv := {| srv_policy := "noeviction";
                srv_maxmemory := 0;
                srv_used_memory := 1024 |} in
  let w := snd (run bytes_plain OPTIONS srv []) in
  "allkeys-lru" = CACHE_REDIS_MAXMEMORY_POLICY OPTIONS /\
  "allkeys-lru" <> "" /\
  returned Get_policy (history w) = Some (VStr "noeviction") /\
  "noeviction" <> "allkeys-lru".
Proof.
  intros OPTIONS srv w.
  apply (policy_written_only_when_needed bytes_plain OPTIONS srv []
           "allkeys-lru" (Returned VNone)).
  right. right. left. reflexivity.
Defined.

Lemma maxmemory_written_only_when_needed_witness :
  let OPTIONS := {| CACHE_BACKEND := "redis";
                    CACHE_REDIS_MAXMEMORY := 100;
                    CACHE_REDIS_MAXMEMORY_POLICY := "" |} in
  let srv := {| srv_policy := "allkeys-lru";
                srv_maxmemory := 0;
                srv_used_memory := 500 |} in
  let w := snd (run bytes_plain OPTIONS srv []) in
  100 = CACHE_REDIS_MAXMEMORY OPTIONS /\
  100 > 0 /\
  returned Get_max_memory (history w) = Some (VInt 0) /\
  0 <> 100 /\
  returned Get_used_memory (history w) = Some (VInt 500).
Proof.
  intros OPTIONS srv w.
  apply (maxmemory_written_only_when_needed bytes_plain OPTIONS srv []
           100 (Returned VNone)).
  do 5 right. left. reflexivity.
Defined.

Lemma clean_run_final_state_witness :
  let OPTIONS := {| CACHE_BACKEND := "redis";
                    CACHE_REDIS_MAXMEMORY := 100;
                    CACHE_REDIS_MAXMEMORY_POLICY := "allkeys-lru" |} in
  let srv := {| srv_policy := "noeviction";
                srv_maxmemory := 0;
                srv_used_memory := 500 |} in
  let w := snd (run bytes_plain OPTIONS srv []) in
  srv_policy (server w) = "allkeys-lru" /\
  srv_maxmemory (server w) = 100.
Proof.
  intros OPTIONS srv w.
  apply (clean_run_final_state bytes_plain OPTIONS srv [] eq_refl eq_refl).
Defined.

Lemma used_memory_warning_only_when_exceeded_witness :
  let OPTIONS := {| CACHE_BACKEND := "redis";
                    CACHE_REDIS_MAXMEMORY := 100;
                    CACHE_REDIS_MAXMEMORY_POLICY := "" |} in
  let srv := {| srv_policy := "allkeys-lru";
                srv_maxmemory := 0;
                srv_used_memory := 500 |} in
  let w := snd (run bytes_plain OPTIONS srv []) in
  returned Get_used_memory (history w) = Some (VInt 500) /\
  0 < 100 < 500 /\
  count is_set_maxmemory (history w) = 1%nat.
Proof.
  intros OPTIONS srv w.
  apply (used_memory_warning_only_when_exceeded bytes_plain OPTIONS srv []
           500 100).
  do 4 right. left. reflexivity.
Defined.

Lemma server_off_defaults_is_silent_witness :
  let OPTIONS := {| CACHE_BACKEND := "redis";
                    CACHE_REDIS_MAXMEMORY := 100;
                    CACHE_REDIS_MAXMEMORY_POLICY := "allkeys-lru" |} in
  let srv := {| srv_policy := "volatile-lru";
                srv_maxmemory := 64;
                srv_used_memory := 50 |} in
  count is_log (history (snd (run bytes_plain OPTIONS srv []))) = 0%nat.
Proof.
  intros OPTIONS srv.
  apply (server_off_defaults_is_silent bytes_plain OPTIONS srv []).
  - discriminate.
  - discriminate.
  - right. discriminate.
  - reflexivity.
Defined.

(** ** The application-ready hook *)

Section ReadyProperties.

Variable bytes_for_humans : Z -> string.
Variable START_PRAGMAS : string.

(** [ready], when the startup tuner raises: the exception leaves [ready]
    before the environment is read. *)
Lemma ready_startup_failure (OPTIONS : Options) (w : AppWorld) (e : exn) :
  fst (activate_pragmas_on_start START_PRAGMAS (app_db w)) = Raise e ->
  ready bytes_for_humans START_PRAGMAS OPTIONS w =
    (Raise e,
     {| app_db := snd (activate_pragmas_on_start START_PRAGMAS (app_db w));
        app_cache := app_cache w; os_environ := os_environ w;
        INSTALLED_APPS := INSTALLED_APPS w;
        app_history := (app_history w ++ [Signal_connect])%list |}).
Proof.
  intros Hs.
  unfold ready, bind, app_do, lift_db, modify.
  cbn [app_db app_cache os_environ INSTALLED_APPS app_history].
  destruct (activate_pragmas_on_start START_PRAGMAS (app_db w)) as [rs d].
  cbn [fst snd] in *. now subst rs.
Qed.

(** [ready], once the startup tuner has returned and the settings module
    is known: the record in the log, the reconciler, and the late steps if
    it returns. *)
Lemma ready_with_settings (OPTIONS : Options) (w : AppWorld) (settings : string) :
  fst (activate_pragmas_on_start START_PRAGMAS (app_db w)) = Normal tt ->
  os_environ w "DJANGO_SETTINGS_MODULE" = Some settings ->
  ready bytes_for_humans START_PRAGMAS OPTIONS w =
    let d := snd (activate_pragmas_on_start START_PRAGMAS (app_db w)) in
    let (r, c) :=
      check_redis_settings bytes_for_humans OPTIONS
        (record (ELog INFO (VStr (running_with_settings settings)))
                (app_cache w)) in
    match r with
    | Normal _ =>
        (Normal tt,
         {| app_db := d; app_cache := c; os_environ := os_environ w;
            INSTALLED_APPS := INSTALLED_APPS w;
            app_history :=
              (app_history w ++
               [Signal_connect; Filter_defaults_update;
                Register_non_plugins (INSTALLED_APPS w);
                Patch_relabeled_clone])%list |})
    | Raise e =>
        (Raise e,
         {| app_db := d; app_cache := c; os_environ := os_environ w;
            INSTALLED_APPS := INSTALLED_APPS w;
            app_history := (app_history w ++ [Signal_connect])%list |})
    end.
Proof.
  intros Hs Henv.
  unfold ready, bind, app_do, lift_db, lift_cache, os_environ_getitem,
    logger_info, modify, gets.
  cbn [app_db app_cache os_environ INSTALLED_APPS app_history].
  destruct (activate_pragmas_on_start START_PRAGMAS (app_db w)) as [rs d].
  cbn [fst snd] in *. subst rs.
  cbn [app_db app_cache os_environ INSTALLED_APPS app_history].
  rewrite Henv.
  cbn [app_db app_cache os_environ INSTALLED_APPS app_history].
  destruct (check_redis_settings _ _ _) as [[[]|e] c].
  - cbn [app_db app_cache os_environ INSTALLED_APPS app_history].
    now rewrite <- !app_assoc.
  - reflexivity.
Qed.

(** X13.  When the startup tuner has returned and the process environment
    has no DJANGO_SETTINGS_MODULE, [ready] raises the [KeyError] of that
    key.  By then the signal is connected and the startup tuner has run;
    the log and the cache server are untouched, and none of the later steps
    is done. *)
Theorem ready_needs_settings_module (OPTIONS : Options) (w : AppWorld) :
  let r := ready bytes_for_humans START_PRAGMAS OPTIONS w in
  fst (activate_pragmas_on_start START_PRAGMAS (app_db w)) = Normal tt ->
  os_environ w "DJANGO_SETTINGS_MODULE" = None ->
  fst r = Raise (Exn Exception "'DJANGO_SETTINGS_MODULE'") /\
  app_cache (snd r) = app_cache w /\
  app_db (snd r) = snd (activate_pragmas_on_start START_PRAGMAS (app_db w)) /\
  app_history (snd r) = (app_history w ++ [Signal_connect])%list.
Proof.
  intros r Hs Henv. subst r.
  unfold ready, bind, app_do, lift_db, os_environ_getitem, modify.
  cbn [app_db app_cache os_environ INSTALLED_APPS app_history].
  destruct (activate_pragmas_on_start START_PRAGMAS (app_db w)) as [rs d].
  cbn [fst snd] in *. subst rs.
  cbn [app_db app_cache os_environ INSTALLED_APPS app_history].
  rewrite Henv. repeat split.
Qed.

(** X14.  When a call to the cache client raises a connection error during
    [ready], [ready] raises the [RedisConnectionError] that wraps it, after
    the startup tuner has run, and none of the steps that follow the
    reconciler is done: no filter default, no plugin registration, no
    patch. *)
Theorem ready_aborts_on_connection_error (OPTIONS : Options) (w : AppWorld)
    (srv : Server) (fs : list (option exn)) (settings : string)
    (e : exn) (after : list event) :
  let r := ready bytes_for_humans START_PRAGMAS OPTIONS w in
  os_environ w "DJANGO_SETTINGS_MODULE" = Some settings ->
  app_cache w = initial srv fs ->
  first_raise (history (app_cache (snd r))) = Some (e, after) ->
  class_of e = ConnectionError ->
  fst r = Raise (ExnFrom RedisConnectionError (unable_to_connect e) e) /\
  app_history (snd r) = (app_history w ++ [Signal_connect])%list /\
  app_db (snd r) = snd (activate_pragmas_on_start START_PRAGMAS (app_db w)).
Proof.
  intros r Henv Hcache. subst r.
  destruct (fst (activate_pragmas_on_start START_PRAGMAS (app_db w)))
    as [[]|e0] eqn:Hs.
  2: { rewrite (ready_startup_failure OPTIONS w e0 Hs).
       cbn [snd app_cache]. rewrite Hcache. discriminate. }
  rewrite (ready_with_settings OPTIONS w settings Hs Henv), Hcache.
  cbv zeta.
  destruct (check_redis_settings _ _ _) as [r c] eqn:Hrun.
  unfold check_redis_settings in Hrun. invert_run Hrun.
  all: cbn [fst snd app_cache app_history app_db history first_raise record
            initial app]; try discriminate.
  all: intros [= <- <-] Hclass.
  all: try (apply isinstance_ConnectionError in Hclass; congruence).
  all: repeat split.
Qed.

(** X15.  When the startup tuner has returned, the settings module is
    known and no call to the cache client raises a connection error
    (whatever else goes wrong in the reconciler), [ready] returns: the
    first record of the log names the settings module, and the framework
    steps are done in this order: signal, filter default, registration of
    [INSTALLED_APPS], patch. *)
Theorem ready_completes (OPTIONS : Options) (w : AppWorld)
    (srv : Server) (fs : list (option exn)) (settings : string) :
  let r := ready bytes_for_humans START_PRAGMAS OPTIONS w in
  fst (activate_pragmas_on_start START_PRAGMAS (app_db w)) = Normal tt ->
  os_environ w "DJANGO_SETTINGS_MODULE" = Some settings ->
  app_cache w = initial srv fs ->
  (forall e after,
      first_raise (history (app_cache (snd r))) = Some (e, after) ->
      class_of e <> ConnectionError) ->
  fst r = Normal tt /\
  app_history (snd r) =
    (app_history w ++
     [Signal_connect; Filter_defaults_update;
      Register_non_plugins (INSTALLED_APPS w); Patch_relabeled_clone])%list /\
  app_db (snd r) = snd (activate_pragmas_on_start START_PRAGMAS (app_db w)) /\
  exists rest,
    history (app_cache (snd r)) =
      ELog INFO (VStr (running_with_settings settings)) :: rest.
Proof.
  intros r Hs Henv Hcache. subst r.
  rewrite (ready_with_settings OPTIONS w settings Hs Henv), Hcache.
  cbv zeta.
  destruct (check_redis_settings _ _ _) as [r c] eqn:Hrun.
  unfold check_redis_settings in Hrun. invert_run Hrun.
  all: cbn [fst snd app_cache app_history app_db history first_raise record
            initial app].
  all: intros Hno.
  all: try solve [repeat split; eexists; reflexivity].
  all: exfalso; eapply Hno; [reflexivity|].
  all: now apply isinstance_ConnectionError.
Qed.

(** X16.  When the startup tuner raises, that exception leaves [ready] at
    once: the signal is connected, and nothing else is done.  The
    environment is not read, nothing is logged, the cache server is not
    contacted, and none of the later steps is done. *)
Theorem ready_aborts_on_database_error (OPTIONS : Options) (w : AppWorld)
    (e : exn) :
  let r := ready bytes_for_humans START_PRAGMAS OPTIONS w in
  fst (activate_pragmas_on_start START_PRAGMAS (app_db w)) = Raise e ->
  fst r = Raise e /\
  app_cache (snd r) = app_cache w /\
  app_history (snd r) = (app_history w ++ [Signal_connect])%list /\
  app_db (snd r) = snd (activate_pragmas_on_start START_PRAGMAS (app_db w)).
Proof.
  intros r Hs. subst r.
  rewrite (ready_startup_failure OPTIONS w e Hs). repeat split.
Qed.

End ReadyProperties.

Lemma ready_needs_settings_module_witness :
  let OPTIONS := {| CACHE_BACKEND := "redis";
                    CACHE_REDIS_MAXMEMORY := 0;
                    CACHE_REDIS_MAXMEMORY_POLICY := "" |} in
  let conn := {| vendor := "sqlite"; alias := "default" |} in
  let w := {| app_db := {| quick_check := Returned (VStr "ok");
                           default_connection := conn;
                           db_faults := [];
                           db_history := [] |};
              app_cache := initial {| srv_policy := "noeviction";
                                      srv_maxmemory := 0;
                                      srv_used_memory := 1024 |} [];
              os_environ := fun _ => None;
              INSTALLED_APPS := ["kolibri.core"];
              app_history := [] |} in
  let r := ready bytes_plain "PRAGMA journal_mode=WAL;" OPTIONS w in
  fst r = Raise (Exn Exception "'DJANGO_SETTINGS_MODULE'") /\
  history (app_cache (snd r)) = [] /\
  db_history (app_db (snd r)) =
    [DbCall (Cursor conn) (Returned VNone);
     DbCall (Execute conn "PRAGMA journal_mode=WAL;") (Returned VNone);
     DbCall (Close conn) (Returned VNone)] /\
  app_history (snd r) = [Signal_connect].
Proof.
  intros OPTIONS conn w r.
  destruct (ready_needs_settings_module bytes_plain "PRAGMA journal_mode=WAL;"
              OPTIONS w eq_refl eq_refl) as (H1 & H2 & H3 & H4).
  subst r. rewrite H2, H3. repeat split; assumption.
Defined.

Lemma ready_aborts_on_connection_error_witness :
  let OPTIONS := {| CACHE_BACKEND := "redis";
                    CACHE_REDIS_MAXMEMORY := 0;
                    CACHE_REDIS_MAXMEMORY_POLICY := "" |} in
  let e := Exn ConnectionError "Connection refused" in
  let w := {| app_db := {| quick_check := Returned (VStr "ok");
                           default_connection :=
                             {| vendor := "sqlite"; alias := "default" |};
                           db_faults := [];
                           db_history := [] |};
              app_cache := initial {| srv_policy := "noeviction";
                                      srv_maxmemory := 0;
                                      srv_used_memory := 1024 |}
                                   [None; Some e];
              os_environ :=
                fun key =>
                  if (key =? "DJANGO_SETTINGS_MODULE")%string
                  then Some "kolibri.deployment.default.settings.base"
                  else None;
              INSTALLED_APPS := ["kolibri.core"];
              app_history := [] |} in
  let r := ready bytes_plain "PRAGMA journal_mode=WAL;" OPTIONS w in
  fst r = Raise (ExnFrom RedisConnectionError
                   "Unable to connect to Redis: Connection refused" e) /\
  app_history (snd r) = [Signal_connect].
Proof.
  intros OPTIONS e w r.
  destruct (ready_aborts_on_connection_error bytes_plain
              "PRAGMA journal_mode=WAL;" OPTIONS w
              {| srv_policy := "noeviction"; srv_maxmemory := 0;
                 srv_used_memory := 1024 |}
              [None; Some e]
              "kolibri.deployment.default.settings.base" e
              [ELog WARNING
                 (VStr "Unable to connect to Redis: Connection refused")]
              eq_refl eq_refl eq_refl eq_refl) as (H1 & H2 & _).
  split; assumption.
Defined.

Lemma ready_completes_witness :
  let OPTIONS := {| CACHE_BACKEND := "redis";
                    CACHE_REDIS_MAXMEMORY := 0;
                    CACHE_REDIS_MAXMEMORY_POLICY := "allkeys-lru" |} in
  let w := {| app_db := {| quick_check := Returned (VStr "ok");
                           default_connection :=
                             {| vendor := "sqlite"; alias := "default" |};
                           db_faults := [];
                           db_history := [] |};
              app_cache := initial {| srv_policy := "noeviction";
                                      srv_maxmemory := 64;
                                      srv_used_memory := 50 |} [];
              os_environ :=
                fun key =>
                  if (key =? "DJANGO_SETTINGS_MODULE")%string
                  then Some "kolibri.deployment.default.settings.base"
                  else None;
              INSTALLED_APPS := ["kolibri.core"; "rest_framework"];
              app_history := [] |} in
  let r := ready bytes_plain "PRAGMA journal_mode=WAL;" OPTIONS w in
  fst r = Normal tt /\
  app_history (snd r) =
    [Signal_connect; Filter_defaults_update;
     Register_non_plugins ["kolibri.core"; "rest_framework"];
     Patch_relabeled_clone].
Proof.
  intros OPTIONS w r.
  destruct (ready_completes bytes_plain "PRAGMA journal_mode=WAL;" OPTIONS w
              {| srv_policy := "noeviction"; srv_maxmemory := 64;
                 srv_used_memory := 50 |}
              []
              "kolibri.deployment.default.settings.base"
              eq_refl eq_refl eq_refl) as (H1 & H2 & _).
  - intros x after Hraise. vm_compute in Hraise. discriminate Hraise.
  - split; assumption.
Defined.

Lemma ready_aborts_on_database_error_witness :
  let OPTIONS := {| CACHE_BACKEND := "redis";
                    CACHE_REDIS_MAXMEMORY := 0;
                    CACHE_REDIS_MAXMEMORY_POLICY := "" |} in
  let e := Exn DatabaseError "database is locked" in
  let w := {| app_db := {| quick_check := Returned (VStr "ok");
                           default_connection :=
                             {| vendor := "sqlite"; alias := "default" |};
                           db_faults := [None; Some e];
                           db_history := [] |};
              app_cache := initial {| srv_policy := "noeviction";
                                      srv_maxmemory := 0;
                                      srv_used_memory := 1024 |} [];
              os_environ :=
                fun key =>
                  if (key =? "DJANGO_SETTINGS_MODULE")%string
                  then Some "kolibri.deployment.default.settings.base"
                  else None;
              INSTALLED_APPS := ["kolibri.core"];
              app_history := [] |} in
  let r := ready bytes_plain "PRAGMA journal_mode=WAL;" OPTIONS w in
  fst r = Raise e /\
  history (app_cache (snd r)) = [] /\
  app_history (snd r) = [Signal_connect].
Proof.
  intros OPTIONS e w r.
  destruct (ready_aborts_on_database_error bytes_plain
              "PRAGMA journal_mode=WAL;" OPTIONS w e eq_refl)
    as (H1 & H2 & H3 & _).
  subst r. rewrite H2. repeat split; assumption.
Defined.
